(** * Process orchestration and liveness probing of app/main.py

    A shallow embedding of the orchestration part of [src/app/main.py]
    (the configuration constants, [log_message], [run_command], the four
    [start_*] functions, [start_desktop_environment],
    [check_desktop_status] and the [/api/status] route) over an explicit
    model of the operating system: a process table, a file system, a
    clock advanced by [time.sleep] and a chronological trace of what the
    program did.  Python exceptions are an outcome of the monad, so that
    [try ... except Exception] is a combinator. *)

From Stdlib Require Import ZArith List String Ascii Bool Lia.
From stdpp Require Import base option gmap strings list.
Import ListNotations.

Open Scope string_scope.
Open Scope list_scope.

(** ** Python values the program handles *)

(** The exceptions that the modelled calls can raise.  Each carries the
    text that [str(e)] gives. *)
Inductive exn : Type :=
| TypeError (msg : string)
| FileNotFoundError (msg : string)
| PermissionError (msg : string).

Definition str (e : exn) : string :=
  match e with
  | TypeError m => m
  | FileNotFoundError m => m
  | PermissionError m => m
  end.

(** Values stored in the dictionaries returned by [check_desktop_status]. *)
Inductive pyval : Type :=
| PyBool (b : bool)
| PyStr (s : string).

(** A Python [dict] with string keys, in insertion order. *)
Definition pydict : Type := list (string * pyval).

Fixpoint dict_get (k : string) (d : pydict) : option pyval :=
  match d with
  | [] => None
  | (k', v) :: d' => if String.eqb k k' then Some v else dict_get k d'
  end.

Definition dict_keys (d : pydict) : list string := map fst d.

(** ** Strings *)

(** [contains pat s]: [pat] occurs in [s].  This is what an unanchored
    regular expression without metacharacters matches, which is how
    [pkill] and [pgrep] use the names given by the program. *)
Fixpoint contains (pat s : string) : bool :=
  String.prefix pat s
  || match s with
     | EmptyString => false
     | String _ s' => contains pat s'
     end.

(** Splitting a simple shell command into its words, at single spaces. *)
Fixpoint words_aux (cur : string) (s : string) : list string :=
  match s with
  | EmptyString => [cur]
  | String c s' =>
      if Ascii.eqb c " "%char then cur :: words_aux "" s'
      else words_aux (cur +:+ String c "") s'
  end.

Definition words (s : string) : list string :=
  List.filter (fun w => negb (String.eqb w "")) (words_aux "" s).

(** ** The operating system *)

(** What happens when a program is started. *)
Inductive Behaviour : Type :=
| Exits (code : Z)   (* runs to completion at once, with this exit status *)
| Daemon.            (* keeps running *)

(** What the system has under an executable name. *)
Inductive Program : Type :=
| Missing                    (* no such file: exec fails with ENOENT *)
| Denied                     (* not executable by this user: EACCES *)
| Installed (b : Behaviour).

(** An entry of the process table: [comm] is the process name (what
    [pkill] matches), [cmdline] the full command line (what [pgrep -f]
    matches); [leader] records that the process was put in a session of
    its own ([os.setsid]). *)
Record Proc : Type := mkProc {
  pid : nat;
  comm : string;
  cmdline : string;
  penv : gmap string string;
  leader : bool
}.

(** A regular file: its text, its permission bits, and whether it
    belongs to another user. *)
Record File : Type := mkFile {
  content : string;
  mode : Z;
  foreign : bool
}.

(** The handle returned by [subprocess.Popen]: the process identifier
    and, for a child that has already terminated, its exit status. *)
Record Popen : Type := mkPopen {
  po_pid : nat;
  po_status : option Z
}.

(** What the program did, in order. *)
Inductive Event : Type :=
| Logged (t : nat) (message : string)
| Exec (t : nat) (argv : list string) (started : bool)
| Slept (t : nat) (seconds : nat)
| Wrote (t : nat) (path : string) (text : string)
| Chmod (t : nat) (path : string) (bits : Z).

Record World : Type := mkWorld {
  procs : list Proc;
  files : gmap string File;
  umask : Z;
  environ : gmap string string;
  programs : string -> Program;
  now : nat;
  next_pid : nat;
  trace : list Event;
  (* the module's global process references *)
  xvfb_process : option Popen;
  x11vnc_process : option Popen;
  xfce_process : option Popen;
  websockify_process : option Popen
}.

Definition set_procs (f : list Proc -> list Proc) (w : World) : World :=
  mkWorld (f (procs w)) (files w) (umask w) (environ w) (programs w) (now w)
    (next_pid w) (trace w)
    (xvfb_process w) (x11vnc_process w) (xfce_process w) (websockify_process w).

Definition set_files (f : gmap string File -> gmap string File) (w : World)
  : World :=
  mkWorld (procs w) (f (files w)) (umask w) (environ w) (programs w) (now w)
    (next_pid w) (trace w)
    (xvfb_process w) (x11vnc_process w) (xfce_process w) (websockify_process w).

Definition set_now (f : nat -> nat) (w : World) : World :=
  mkWorld (procs w) (files w) (umask w) (environ w) (programs w) (f (now w))
    (next_pid w) (trace w)
    (xvfb_process w) (x11vnc_process w) (xfce_process w) (websockify_process w).

Definition set_next_pid (f : nat -> nat) (w : World) : World :=
  mkWorld (procs w) (files w) (umask w) (environ w) (programs w) (now w)
    (f (next_pid w)) (trace w)
    (xvfb_process w) (x11vnc_process w) (xfce_process w) (websockify_process w).

Definition emit (e : Event) (w : World) : World :=
  mkWorld (procs w) (files w) (umask w) (environ w) (programs w) (now w)
    (next_pid w) (trace w ++ [e])
    (xvfb_process w) (x11vnc_process w) (xfce_process w) (websockify_process w).

Definition set_xvfb_process (p : Popen) (w : World) : World :=
  mkWorld (procs w) (files w) (umask w) (environ w) (programs w) (now w)
    (next_pid w) (trace w)
    (Some p) (x11vnc_process w) (xfce_process w) (websockify_process w).

Definition set_x11vnc_process (p : Popen) (w : World) : World :=
  mkWorld (procs w) (files w) (umask w) (environ w) (programs w) (now w)
    (next_pid w) (trace w)
    (xvfb_process w) (Some p) (xfce_process w) (websockify_process w).

Definition set_xfce_process (p : Popen) (w : World) : World :=
  mkWorld (procs w) (files w) (umask w) (environ w) (programs w) (now w)
    (next_pid w) (trace w)
    (xvfb_process w) (x11vnc_process w) (Some p) (websockify_process w).

Definition set_websockify_process (p : Popen) (w : World) : World :=
  mkWorld (procs w) (files w) (umask w) (environ w) (programs w) (now w)
    (next_pid w) (trace w)
    (xvfb_process w) (x11vnc_process w) (xfce_process w) (Some p).

(** ** The monad of effects *)

(** A call returns a value, raises, or never returns (it waits for a
    process that does not terminate).  The world it leaves behind is
    kept in every case: what was done before an exception stays done. *)
Inductive outcome (A : Type) : Type :=
| Returns (a : A)
| Raises (e : exn)
| Blocks.

Arguments Returns {A} a.
Arguments Raises {A} e.
Arguments Blocks {A}.

Definition M (A : Type) : Type := World -> outcome A * World.

Definition ret {A} (a : A) : M A := fun w => (Returns a, w).

Definition raise {A} (e : exn) : M A := fun w => (Raises e, w).

Definition bind {A B} (m : M A) (k : A -> M B) : M B :=
  fun w =>
    match m w with
    | (Returns a, w') => k a w'
    | (Raises e, w') => (Raises e, w')
    | (Blocks, w') => (Blocks, w')
    end.

(** [try: body except Exception as e: handler]. *)
Definition try_except {A} (body : M A) (handler : exn -> M A) : M A :=
  fun w =>
    match body w with
    | (Raises e, w') => handler e w'
    | r => r
    end.

Definition modify (f : World -> World) : M unit := fun w => (Returns tt, f w).

Definition gets {A} (f : World -> A) : M A := fun w => (Returns (f w), w).

Declare Scope py_scope.
Delimit Scope py_scope with py.
Notation "x <- m ;; k" := (bind m (fun x => k))
  (at level 100, m at next level, right associativity) : py_scope.
Notation "m ;; k" := (bind m (fun _ => k))
  (at level 100, right associativity) : py_scope.
Open Scope py_scope.

(** ** System calls and library calls *)

(** [log_message]: one line on standard output.  The wall-clock stamp of
    the source is the model's clock value. *)
Definition log_message (message : string) : M unit :=
  fun w => (Returns tt, emit (Logged (now w) message) w).

(** [time.sleep n].  The clock is logical: it advances by sleeping only,
    every other step takes no time. *)
Definition sleep (n : nat) : M unit :=
  fun w => (Returns tt, set_now (fun t => t + n) (emit (Slept (now w) n) w)).

Definition enoent (name : string) : exn :=
  FileNotFoundError ("[Errno 2] No such file or directory: '" +:+ name +:+ "'").

Definition eacces (name : string) : exn :=
  PermissionError ("[Errno 13] Permission denied: '" +:+ name +:+ "'").

Definition eperm (name : string) : exn :=
  PermissionError ("[Errno 1] Operation not permitted: '" +:+ name +:+ "'").

Definition unwords (ws : list string) : string := String.concat " " ws.

(** [pkill -9 pat]: every process whose name matches is gone; the exit
    status is 0 when there was one and 1 otherwise.  The signal cannot
    be caught, and the program sleeps a second after sending it: the
    model removes the processes at once. *)
Definition pkill_9 (pat : string) (w : World) : Z * World :=
  ((if existsb (fun p => contains pat (comm p)) (procs w) then 0 else 1)%Z,
   set_procs (List.filter (fun p => negb (contains pat (comm p)))) w).

(** [pgrep -f pat]: exit status 0 when the command line of some process
    matches, 1 otherwise. *)
Definition pgrep_f (pat : string) (w : World) : Z :=
  (if existsb (fun p => contains pat (cmdline p)) (procs w) then 0 else 1)%Z.

(** A program other than the two tools: it terminates at once or stays
    in the process table, as the system says. *)
Definition launch (b : Behaviour) (argv : list string)
    (env : gmap string string) (setsid : bool) (w : World)
  : (exn + Popen) * World :=
  let p := next_pid w in
  let w1 := set_next_pid S w in
  match b with
  | Exits c => (inr (mkPopen p (Some c)), w1)
  | Daemon =>
      (inr (mkPopen p None),
       set_procs
         (fun ps => ps ++ [mkProc p (hd "" argv) (unwords argv) env setsid])
         w1)
  end.

(** Starting the program named by the head of [argv].  An installed
    [pkill] or [pgrep] is the procps tool; any other program does what
    the system says it does. *)
Definition execute (argv : list string) (env : gmap string string)
    (setsid : bool) (w : World) : (exn + Popen) * World :=
  let name := hd "" argv in
  match programs w name with
  | Missing => (inl (enoent name), w)
  | Denied => (inl (eacces name), w)
  | Installed b =>
      match argv with
      | [tool; flag; pat] =>
          if String.eqb tool "pkill" && String.eqb flag "-9" then
            let '(c, w2) := pkill_9 pat (set_next_pid S w) in
            (inr (mkPopen (next_pid w) (Some c)), w2)
          else if String.eqb tool "pgrep" && String.eqb flag "-f" then
            (inr (mkPopen (next_pid w) (Some (pgrep_f pat w))),
             set_next_pid S w)
          else launch b argv env setsid w
      | _ => launch b argv env setsid w
      end
  end.

(** [/bin/sh -c command] for a simple command (words separated by
    spaces, no quoting, no operators): the shell replaces itself by the
    command, or exits with 127 or 126 when it cannot start it. *)
Definition sh_c (command : string) (env : gmap string string)
    (setsid : bool) (w : World) : (exn + Popen) * World :=
  match programs w "/bin/sh" with
  | Missing => (inl (enoent "/bin/sh"), w)
  | Denied => (inl (eacces "/bin/sh"), w)
  | Installed _ =>
      match execute (words command) env setsid w with
      | (inr p, w') => (inr p, w')
      | (inl (FileNotFoundError _), w') =>
          (inr (mkPopen (next_pid w') (Some 127%Z)), set_next_pid S w')
      | (inl _, w') =>
          (inr (mkPopen (next_pid w') (Some 126%Z)), set_next_pid S w')
      end
  end.

(** The first argument of [subprocess.Popen]: a list or a string. *)
Inductive cmd : Type :=
| Argv (l : list string)
| Command (s : string).

(** Values given to keyword arguments. *)
Inductive kwval : Type :=
| PIPE
| os_setsid
| PyTrue
| Env (e : gmap string string).

Definition kwargs : Type := list (string * kwval).

Fixpoint kw_get (k : string) (kw : kwargs) : option kwval :=
  match kw with
  | [] => None
  | (k', v) :: kw' => if String.eqb k k' then Some v else kw_get k kw'
  end.

(** The keyword parameters of [subprocess.Popen.__init__]. *)
Definition popen_parameters : list string :=
  ["bufsize"; "executable"; "stdin"; "stdout"; "stderr"; "preexec_fn";
   "close_fds"; "shell"; "cwd"; "env"; "universal_newlines"; "startupinfo";
   "creationflags"; "restore_signals"; "start_new_session"; "pass_fds";
   "user"; "group"; "extra_groups"; "encoding"; "errors"; "text"; "umask";
   "pipesize"; "process_group"].

Definition unexpected_keyword (kw : kwargs) : option string :=
  match
    List.find
      (fun kv => negb (existsb (String.eqb (fst kv)) popen_parameters)) kw
  with
  | Some (k, _) => Some k
  | None => None
  end.

(** The vector handed to exec. *)
Definition exec_vector (args : cmd) (shell : bool) : list string :=
  match args, shell with
  | Argv l, false => l
  | Command s, false => [s]
  | Argv l, true => "/bin/sh" :: "-c" :: l
  | Command s, true => ["/bin/sh"; "-c"; s]
  end.

(** [subprocess.Popen(args, **kw)].  A keyword that is not a parameter
    makes the call itself raise [TypeError], before anything is run; a
    failing exec raises the [OSError] subclass; otherwise the handle is
    returned while the child goes on. *)
Definition subprocess_Popen (args : cmd) (kw : kwargs) : M Popen :=
  fun w =>
    match unexpected_keyword kw with
    | Some k =>
        (Raises
           (TypeError
              ("Popen.__init__() got an unexpected keyword argument '"
               +:+ k +:+ "'")), w)
    | None =>
        let env :=
          match kw_get "env" kw with Some (Env e) => e | _ => environ w end in
        let setsid :=
          match kw_get "preexec_fn" kw with
          | Some os_setsid => true
          | _ => false
          end in
        let shell :=
          match kw_get "shell" kw with Some PyTrue => true | _ => false end in
        let v := exec_vector args shell in
        let '(r, w') :=
          if shell then sh_c (nth 2 v "") env setsid w
          else execute v env setsid w in
        match r with
        | inl e => (Raises e, emit (Exec (now w) v false) w')
        | inr p => (Returns p, emit (Exec (now w) v true) w')
        end
    end.

(** [process.wait()]: the exit status; never returns for a child that
    does not terminate. *)
Definition Popen_wait (p : Popen) : M Z :=
  fun w =>
    match po_status p with
    | Some c => (Returns c, w)
    | None => (Blocks, w)
    end.

Record CompletedProcess : Type := mkCompleted { returncode : Z }.

(** [subprocess.run(argv, capture_output=True, text=True)]. *)
Definition subprocess_run (argv : list string) : M CompletedProcess :=
  process <- subprocess_Popen (Argv argv)
               [("stdout", PIPE); ("stderr", PIPE); ("text", PyTrue)] ;;
  rc <- Popen_wait process ;;
  ret (mkCompleted rc).

(** Permission bits: the positions of the owner's and of the others'
    write bit (0200 and 0002), and the two modes that occur. *)
Definition S_IWUSR : N := 7.
Definition S_IWOTH : N := 1.
Definition mode_0o600 : Z := 6 * 64.
Definition mode_0o666 : Z := 6 * 64 + 6 * 8 + 6.

Definition writable (f : File) : bool :=
  Z.testbit (mode f) (Z.of_N (if foreign f then S_IWOTH else S_IWUSR)).

(** [with open(path, 'w') as f: f.write(text)].  An existing file keeps
    its permission bits and its owner; a new one gets 0666 less the
    umask. *)
Definition write_text (path text : string) : M unit :=
  fun w =>
    match files w !! path with
    | Some f =>
        if writable f then
          (Returns tt,
           emit (Wrote (now w) path text)
             (set_files (insert path (mkFile text (mode f) (foreign f))) w))
        else (Raises (eacces path), w)
    | None =>
        (Returns tt,
         emit (Wrote (now w) path text)
           (set_files
              (insert path (mkFile text (Z.ldiff mode_0o666 (umask w)) false))
              w))
    end.

(** [os.chmod(path, bits)]: only for a file of one's own. *)
Definition os_chmod (path : string) (bits : Z) : M unit :=
  fun w =>
    match files w !! path with
    | None => (Raises (enoent path), w)
    | Some f =>
        if foreign f then (Raises (eperm path), w)
        else
          (Returns tt,
           emit (Chmod (now w) path bits)
             (set_files (insert path (mkFile (content f) bits false)) w))
    end.

(** ** Configuration (lines 19-22) *)

Record Config : Type := mkConfig {
  VNC_PASSWORD : string;
  RESOLUTION : string;
  VNC_PORT : string
}.

Definition os_environ_get (env : gmap string string) (key dflt : string)
  : string :=
  default dflt (env !! key).

Definition load_config (env : gmap string string) : Config :=
  {| VNC_PASSWORD := os_environ_get env "VNC_PASSWORD" "huggingface";
     RESOLUTION := os_environ_get env "RESOLUTION" "1280x720";
     VNC_PORT := os_environ_get env "VNC_PORT" "5900" |}.

(** ** The program *)

Inductive run_result : Type :=
| RBool (b : bool)
| RProcess (p : Popen).

Definition password_file : string := "/tmp/vnc_passwd".

(** The one-character string written as a backslash and an n in the
    source. *)
Definition newline : string := String "010"%char EmptyString.

Section Orchestrator.

(** The module-level constants, read once when the module is loaded. *)
Variable cfg : Config.

(** [run_command(command, wait=True, shell=False)], lines 36-61. *)
Definition run_command (command : cmd) (wait shell : bool) : M run_result :=
  try_except
    (process <-
       (if shell then
          subprocess_Popen command
            [("shell", PyTrue); ("stdout", PIPE); ("stderr", PIPE);
             ("preexec_fn", os_setsid)]
        else
          subprocess_Popen command
            [("stdout", PIPE); ("stderr", PIPE);
             ("preprocess", os_setsid)]) ;;
     if wait then
       rc <- Popen_wait process ;;
       ret (RBool (rc =? 0)%Z)
     else ret (RProcess process))
    (fun e =>
       log_message ("Error running command: " +:+ str e) ;;
       ret (RBool false)).

Definition xvfb_argv : list string :=
  ["Xvfb"; ":1"; "-screen"; "0"; RESOLUTION cfg +:+ "x24"; "-ac";
   "+extension"; "GLX"].

(** [start_xvfb], lines 64-83. *)
Definition start_xvfb : M bool :=
  log_message "Starting Xvfb..." ;;
  run_command (Command "pkill -9 Xvfb") false true ;;
  sleep 1 ;;
  p <- subprocess_Popen (Argv xvfb_argv)
         [("stdout", PIPE); ("stderr", PIPE); ("preexec_fn", os_setsid)] ;;
  modify (set_xvfb_process p) ;;
  sleep 2 ;;
  log_message "Xvfb started on display :1" ;;
  ret true.

Definition xfce_argv : list string := ["startxfce4"].

(** [start_xfce], lines 86-106. *)
Definition start_xfce : M bool :=
  log_message "Starting Xfce4..." ;;
  env <- gets environ ;;
  let env := <["DISPLAY" := ":1"]> env in
  p <- subprocess_Popen (Argv xfce_argv)
         [("stdout", PIPE); ("stderr", PIPE); ("env", Env env);
          ("preexec_fn", os_setsid)] ;;
  modify (set_xfce_process p) ;;
  sleep 3 ;;
  log_message "Xfce4 started" ;;
  ret true.

(** Lines 114-121 of [start_vnc_server]: the password file. *)
Definition create_password_file : M unit :=
  try_except
    (write_text password_file (VNC_PASSWORD cfg +:+ newline) ;;
     os_chmod password_file mode_0o600)
    (fun e => log_message ("Error creating password file: " +:+ str e)).

Definition x11vnc_argv : list string :=
  ["x11vnc"; "-display"; ":1"; "-localhost"; "-forever"; "-shared";
   "-rfbport"; VNC_PORT cfg; "-rfbauth"; password_file;
   "-o"; "/tmp/x11vnc.log"; "-bg"].

(** Lines 109-125 of [start_vnc_server]: everything before the spawn. *)
Definition start_vnc_server_prepare : M unit :=
  log_message "Starting x11vnc server..." ;;
  create_password_file ;;
  run_command (Command "pkill -9 x11vnc") false true ;;
  sleep 1.

(** Lines 127-147 of [start_vnc_server]: the spawn and what follows. *)
Definition start_vnc_server_spawn : M bool :=
  p <- subprocess_Popen (Argv x11vnc_argv)
         [("stdout", PIPE); ("stderr", PIPE); ("preexec_fn", os_setsid)] ;;
  modify (set_x11vnc_process p) ;;
  sleep 2 ;;
  log_message ("x11vnc started on port " +:+ VNC_PORT cfg) ;;
  ret true.

(** [start_vnc_server], lines 109-147. *)
Definition start_vnc_server : M bool :=
  start_vnc_server_prepare ;;
  start_vnc_server_spawn.

Definition websockify_argv : list string :=
  ["websockify"; "--web"; "/home/user/novnc"; "6080"; "localhost:5900"].

(** [start_websockify], lines 150-169. *)
Definition start_websockify : M bool :=
  log_message "Starting websockify..." ;;
  run_command (Command "pkill -9 websockify") false true ;;
  sleep 1 ;;
  p <- subprocess_Popen (Argv websockify_argv)
         [("stdout", PIPE); ("stderr", PIPE); ("preexec_fn", os_setsid)] ;;
  modify (set_websockify_process p) ;;
  sleep 2 ;;
  log_message "websockify started on port 6080" ;;
  ret true.

(** [start_desktop_environment], lines 172-183. *)
Definition start_desktop_environment : M bool :=
  log_message "Initializing desktop environment..." ;;
  start_xvfb ;;
  start_xfce ;;
  start_vnc_server ;;
  start_websockify ;;
  log_message "Desktop environment ready!" ;;
  ret true.

(** [check_desktop_status], lines 186-221. *)
Definition check_desktop_status : M pydict :=
  try_except
    (result <- subprocess_run ["pgrep"; "-f"; "Xvfb"] ;;
     let xvfb_running := (returncode result =? 0)%Z in
     result <- subprocess_run ["pgrep"; "-f"; "x11vnc"] ;;
     let vnc_running := (returncode result =? 0)%Z in
     result <- subprocess_run ["pgrep"; "-f"; "websockify"] ;;
     let ws_running := (returncode result =? 0)%Z in
     ret [("xvfb", PyBool xvfb_running);
          ("vnc", PyBool vnc_running);
          ("websockify", PyBool ws_running);
          ("ready", PyBool (xvfb_running && vnc_running && ws_running))])
    (fun e =>
       log_message ("Error checking status: " +:+ str e) ;;
       ret [("error", PyStr (str e))]).

(** The body of a Flask response made by [jsonify]. *)
Record Response : Type := mkResponse {
  json : pydict;
  status_code : nat
}.

Definition jsonify (d : pydict) : Response := mkResponse d 200.

(** The [/api/status] route, lines 335-339. *)
Definition api_status : M Response :=
  status <- check_desktop_status ;;
  ret (jsonify status).

End Orchestrator.

(** ** Roles and observations *)

(** The four managed processes, in the order [start_desktop_environment]
    starts them. *)
Inductive ManagedRole : Type :=
| DisplayServer
| WindowSession
| RemoteDisplayServer
| WebSocketBridge.

Definition roles_in_order : list ManagedRole :=
  [DisplayServer; WindowSession; RemoteDisplayServer; WebSocketBridge].

(** The executable name of a role: the head of the vector its
    [start_*] function passes to [subprocess.Popen]. *)
Definition executable (r : ManagedRole) : string :=
  match r with
  | DisplayServer => "Xvfb"
  | WindowSession => "startxfce4"
  | RemoteDisplayServer => "x11vnc"
  | WebSocketBridge => "websockify"
  end.

(** The arguments a role is spawned with. *)
Definition role_argv (cfg : Config) (r : ManagedRole) : list string :=
  match r with
  | DisplayServer => xvfb_argv cfg
  | WindowSession => xfce_argv
  | RemoteDisplayServer => x11vnc_argv cfg
  | WebSocketBridge => websockify_argv
  end.


(** The shell command that [run_command] is given to kill the earlier
    instances of a role. *)
Definition reap_command (r : ManagedRole) : string :=
  "pkill -9 " +:+ executable r.

Definition role_of (argv : list string) : option ManagedRole :=
  List.find (fun r => String.eqb (hd "" argv) (executable r)) roles_in_order.

(** The spawns of roles in a trace, each with the time it was made at. *)
Fixpoint role_spawns (evs : list Event) : list (nat * ManagedRole) :=
  match evs with
  | [] => []
  | Exec t argv _ :: evs' =>
      match role_of argv with
      | Some r => (t, r) :: role_spawns evs'
      | None => role_spawns evs'
      end
  | _ :: evs' => role_spawns evs'
  end.




Definition is_exec (e : Event) : bool :=
  match e with
  | Exec _ _ _ => true
  | _ => false
  end.


Definition is_log (e : Event) : bool :=
  match e with
  | Logged _ _ => true
  | _ => false
  end.


(** What [pgrep -f] answers for a role. *)
Definition running (r : ManagedRole) (w : World) : bool :=
  existsb (fun p => contains (executable r) (cmdline p)) (procs w).

(** The roles reported by [check_desktop_status] and the key of each. *)
Definition status_key (r : ManagedRole) : option string :=
  match r with
  | DisplayServer => Some "xvfb"
  | WindowSession => None
  | RemoteDisplayServer => Some "vnc"
  | WebSocketBridge => Some "websockify"
  end.

Definition snapshot (w : World) : pydict :=
  [("xvfb", PyBool (running DisplayServer w));
   ("vnc", PyBool (running RemoteDisplayServer w));
   ("websockify", PyBool (running WebSocketBridge w));
   ("ready",
    PyBool
      (running DisplayServer w && running RemoteDisplayServer w
       && running WebSocketBridge w))].

(** Whether the system lets a program start, and the error if not. *)
Definition exec_error (w : World) (name : string) : option exn :=
  match programs w name with
  | Missing => Some (enoent name)
  | Denied => Some (eacces name)
  | Installed _ => None
  end.

(** What [run_command] leaves in the trace when it is given a shell
    command and told not to wait. *)
Definition shell_events (pr : string -> Program) (t : nat) (c : string)
  : list Event :=
  match pr "/bin/sh" with
  | Missing =>
      [Exec t ["/bin/sh"; "-c"; c] false;
       Logged t ("Error running command: " +:+ str (enoent "/bin/sh"))]
  | Denied =>
      [Exec t ["/bin/sh"; "-c"; c] false;
       Logged t ("Error running command: " +:+ str (eacces "/bin/sh"))]
  | Installed _ => [Exec t ["/bin/sh"; "-c"; c] true]
  end.

(** The process table after the reap command of a role. *)
Definition reaped (pr : string -> Program) (r : ManagedRole)
    (ps : list Proc) : list Proc :=
  match pr "/bin/sh", pr "pkill" with
  | Installed _, Installed _ =>
      List.filter (fun p => negb (contains (executable r) (comm p))) ps
  | _, _ => ps
  end.

(** The handle of a process started with identifier [p], and the entry
    it leaves in the process table. *)
Definition handle (p : nat) (b : Behaviour) : Popen :=
  match b with
  | Exits c => mkPopen p (Some c)
  | Daemon => mkPopen p None
  end.

Definition spawned (b : Behaviour) (p : nat) (argv : list string)
    (env : gmap string string) (setsid : bool) : list Proc :=
  match b with
  | Exits _ => []
  | Daemon => [mkProc p (hd "" argv) (unwords argv) env setsid]
  end.

(** The first role, in start-up order, that the system cannot start. *)
Definition first_failure (w : World) : option (ManagedRole * exn) :=
  match
    List.find
      (fun r =>
         match exec_error w (executable r) with
         | Some _ => true
         | None => false
         end)
      roles_in_order
  with
  | Some r =>
      match exec_error w (executable r) with
      | Some e => Some (r, e)
      | None => None
      end
  | None => None
  end.

(** The roles up to and including [r]. *)
Definition up_to (r : ManagedRole) : list ManagedRole :=
  match r with
  | DisplayServer => [DisplayServer]
  | WindowSession => [DisplayServer; WindowSession]
  | RemoteDisplayServer => [DisplayServer; WindowSession; RemoteDisplayServer]
  | WebSocketBridge => roles_in_order
  end.

Definition before (r : ManagedRole) : list ManagedRole :=
  removelast (up_to r).


(** ** Concrete systems for the examples *)

(** Every program is installed and keeps running. *)
Definition healthy : string -> Program := fun _ => Installed Daemon.

(** Every program is installed; the four roles exit at once with
    status 1. *)
Definition crashing : string -> Program :=
  fun name =>
    if existsb (fun r => String.eqb name (executable r)) roles_in_order
    then Installed (Exits 1)
    else Installed Daemon.

(** Everything but the display server is installed. *)
Definition no_xvfb : string -> Program :=
  fun name => if String.eqb name "Xvfb" then Missing else Installed Daemon.

(** The system without [pgrep]. *)
Definition no_pgrep : string -> Program :=
  fun name => if String.eqb name "pgrep" then Missing else Installed Daemon.

(** A freshly started container: no process of interest, no file, umask
    022, an empty environment. *)
Definition boot (progs : string -> Program) : World :=
  mkWorld [] ∅ 18 ∅ progs 0 100 [] None None None None.

Definition default_config : Config := load_config ∅.

Definition port_5901 : Config :=
  load_config {[ "VNC_PORT" := "5901" ]}.

Definition after {A} (m : M A) (w : World) : World := snd (m w).

(** The three probed roles are up, the window session was never
    started. *)
Definition no_session : World :=
  after
    (start_xvfb default_config ;;
     start_vnc_server default_config ;;
     start_websockify)
    (boot healthy).

(** Only the display server was started. *)
Definition only_display : World :=
  after (start_xvfb default_config) (boot healthy).


(** A password file left by another user, writable by everyone. *)
Definition foreign_password_file : World :=
  set_files (insert password_file (mkFile "" mode_0o666 true)) (boot healthy).

(** ** Further observations and systems *)

(** What the status query may leave in the trace: runs of [pgrep] and
    log lines. *)
Definition is_probe_event (e : Event) : Prop :=
  match e with
  | Exec _ argv _ => hd "" argv = "pgrep"
  | Logged _ _ => True
  | _ => False
  end.

(** The environment a role is spawned with: the program's own, and for
    the window session the copy with [DISPLAY] set. *)
Definition role_environment (env : gmap string string) (r : ManagedRole)
  : gmap string string :=
  match r with
  | WindowSession => <["DISPLAY" := ":1"]> env
  | _ => env
  end.

(** A process as one of the start functions creates it. *)
Definition role_process (cfg : Config) (env : gmap string string)
    (p : Proc) : Prop :=
  exists r,
    comm p = executable r
    /\ cmdline p = unwords (role_argv cfg r)
    /\ penv p = role_environment env r
    /\ leader p = true.


(** A system without a shell. *)
Definition no_shell : string -> Program :=
  fun name => if String.eqb name "/bin/sh" then Missing else Installed Daemon.

(** A system without [pkill]. *)
Definition no_pkill : string -> Program :=
  fun name => if String.eqb name "pkill" then Missing else Installed Daemon.

(** A system whose programs, the shell apart, exit at once with status
    [c]. *)
Definition exits_with (c : Z) : string -> Program :=
  fun name =>
    if String.eqb name "/bin/sh" then Installed Daemon
    else Installed (Exits c).

(** A process that only mentions the display server on its command
    line. *)
Definition log_watcher : Proc :=
  mkProc 7 "tail" "tail -f /var/log/Xvfb.log" ∅ false.

Definition watched : World :=
  set_procs (fun _ => [log_watcher]) (boot crashing).


Definition bogus_resolution : gmap string string :=
  {[ "RESOLUTION" := "bogus" ]}.

(** The display server is up on a system without [pkill]. *)
Definition only_display_no_pkill : World :=
  after (start_xvfb default_config) (boot no_pkill).

(** * Proofs *)

(** ** Symbolic execution *)

(** Running the program on a world given by its fields: the monad, the
    setters and the projections are unfolded, the calls into the system
    are rewritten with the lemmas below, and the cases of a program
    being missing, not executable or installed are split as they come
    up. *)
Ltac wsimpl0 :=
  cbv beta iota zeta delta
    [bind ret raise try_except modify gets log_message sleep emit
     set_procs set_files set_now set_next_pid set_xvfb_process
     set_x11vnc_process set_xfce_process set_websockify_process
     procs files umask environ programs now next_pid trace
     xvfb_process x11vnc_process xfce_process websockify_process
     fst snd after].

Ltac wsimpl :=
  cbv beta iota zeta delta
    [bind ret raise try_except modify gets log_message sleep emit
     set_procs set_files set_now set_next_pid set_xvfb_process
     set_x11vnc_process set_xfce_process set_websockify_process
     procs files umask environ programs now next_pid trace
     xvfb_process x11vnc_process xfce_process websockify_process
     fst snd after kw_get String.eqb Ascii.eqb Bool.eqb].

Lemma words_reap (r : ManagedRole) :
  words (reap_command r) = ["pkill"; "-9"; executable r].
Proof. destruct r; reflexivity. Qed.

(** [run_command] on the reap command of a role never raises; it
    changes the process table, the trace and the next identifier only. *)
Lemma run_command_reap (r : ManagedRole) (w : World) :
  exists res np,
    run_command (Command (reap_command r)) false true w
    = (Returns res,
       mkWorld (reaped (programs w) r (procs w)) (files w) (umask w)
         (environ w) (programs w) (now w) np
         (trace w ++ shell_events (programs w) (now w) (reap_command r))
         (xvfb_process w) (x11vnc_process w) (xfce_process w)
         (websockify_process w)).
Proof.
  destruct w as [ps fs um en pr t np tr g1 g2 g3 g4].
  unfold run_command, subprocess_Popen, reaped, shell_events.
  wsimpl0. cbn -[words sh_c].
  unfold sh_c. wsimpl0. rewrite words_reap.
  destruct (pr "/bin/sh") as [| | ?]; wsimpl0; rewrite <- ?app_assoc; eauto.
  unfold execute, pkill_9. cbn.
  destruct (pr "pkill") as [| | ?]; cbn; eauto.
Qed.

(** Spawning a program that is not one of the tools, without a shell. *)
Lemma popen_spawn (name : string) (args : list string) (kw : kwargs)
    (w : World) :
  unexpected_keyword kw = None ->
  kw_get "shell" kw = None ->
  length args <> 2 ->
  subprocess_Popen (Argv (name :: args)) kw w
  = let env :=
      match kw_get "env" kw with Some (Env e) => e | _ => environ w end in
    let setsid :=
      match kw_get "preexec_fn" kw with
      | Some os_setsid => true
      | _ => false
      end in
    match programs w name with
    | Missing =>
        (Raises (enoent name), emit (Exec (now w) (name :: args) false) w)
    | Denied =>
        (Raises (eacces name), emit (Exec (now w) (name :: args) false) w)
    | Installed b =>
        (Returns (handle (next_pid w) b),
         mkWorld
           (procs w ++ spawned b (next_pid w) (name :: args) env setsid)
           (files w) (umask w) (environ w) (programs w) (now w)
           (S (next_pid w))
           (trace w ++ [Exec (now w) (name :: args) true])
           (xvfb_process w) (x11vnc_process w) (xfce_process w)
           (websockify_process w))
    end.
Proof.
  intros Hkw Hsh Hlen.
  destruct w as [ps fs um en pr t np tr g1 g2 g3 g4].
  unfold subprocess_Popen. rewrite Hkw, Hsh.
  unfold exec_vector, execute. wsimpl0. cbn [hd].
  destruct (pr name) as [| | b]; try reflexivity.
  assert (Hl : launch b (name :: args)
            match kw_get "env" kw with Some (Env e) => e | _ => en end
            match kw_get "preexec_fn" kw with
            | Some os_setsid => true
            | _ => false
            end (mkWorld ps fs um en pr t np tr g1 g2 g3 g4)
          = (inr (handle np b),
             mkWorld
               (ps ++ spawned b np (name :: args)
                        match kw_get "env" kw with
                        | Some (Env e) => e
                        | _ => en
                        end
                        match kw_get "preexec_fn" kw with
                        | Some os_setsid => true
                        | _ => false
                        end)
               fs um en pr t (S np) tr g1 g2 g3 g4)).
  { unfold launch, handle, spawned. wsimpl0.
    destruct b; [rewrite app_nil_r|]; reflexivity. }
  destruct args as [|a1 [|a2 [|a3 args]]]; cbn in Hlen; try lia;
    rewrite Hl; reflexivity.
Qed.

(** Writing the password file never raises and starts nothing. *)
Lemma create_password_file_frame (cfg : Config) (w : World) :
  exists fs evs,
    create_password_file cfg w
    = (Returns tt,
       mkWorld (procs w) fs (umask w) (environ w) (programs w) (now w)
         (next_pid w) (trace w ++ evs)
         (xvfb_process w) (x11vnc_process w) (xfce_process w)
         (websockify_process w))
    /\ Forall (fun e => is_exec e = false) evs.
Proof.
  destruct w as [ps fs um en pr t np tr g1 g2 g3 g4].
  unfold create_password_file, write_text, os_chmod. wsimpl.
  destruct (fs !! password_file) as [f|] eqn:Hf.
  - destruct (writable f).
    + rewrite lookup_insert_eq. cbn [foreign content mode].
      destruct (foreign f); wsimpl.
      * eexists _, [_; _]. split; [rewrite <- app_assoc; reflexivity|].
        repeat constructor.
      * eexists _, [_; _]. split; [rewrite <- app_assoc; reflexivity|].
        repeat constructor.
    + eexists _, [_]. split; [reflexivity|]. repeat constructor.
  - rewrite lookup_insert_eq. cbn [foreign content mode]. wsimpl.
    eexists _, [_; _]. split; [rewrite <- app_assoc; reflexivity|].
    repeat constructor.
Qed.

Ltac reap_with r c w :=
  let H := fresh "Hreap" in
  destruct (run_command_reap r w) as (? & ? & H);
  change (reap_command r) with c in H; rewrite H; clear H.

Ltac reap_step :=
  match goal with
  | |- context [run_command (Command ?c) false true ?w] =>
      match c with
      | "pkill -9 Xvfb" => reap_with DisplayServer c w
      | "pkill -9 x11vnc" => reap_with RemoteDisplayServer c w
      | "pkill -9 websockify" => reap_with WebSocketBridge c w
      end
  end.

Ltac password_step :=
  match goal with
  | |- context [create_password_file ?cfg ?w] =>
      let H := fresh "Hpw" in
      let F := fresh "Hquiet" in
      destruct (create_password_file_frame cfg w) as (? & ? & H & F);
      rewrite H; clear H
  end.

Ltac popen_step :=
  match goal with
  | |- context [subprocess_Popen (Argv (?name :: ?args)) ?kw ?w] =>
      rewrite (popen_spawn name args kw w)
        by first [reflexivity | cbn; lia]
  end.

Ltac known_program :=
  match goal with
  | H : ?f ?s = _
    |- context [match ?f ?s with
                | Missing => _ | Denied => _ | Installed _ => _
                end] =>
      rewrite !H
  end.

Ltac case_program :=
  match goal with
  | |- context [match ?f ?s with
                | Missing => _ | Denied => _ | Installed _ => _
                end] =>
      let H := fresh "Hprog" in
      destruct (f s) as [| |?] eqn:H
  end.

Ltac run :=
  unfold start_desktop_environment, start_xvfb, start_xfce,
    start_vnc_server, start_vnc_server_prepare, start_vnc_server_spawn,
    start_websockify,
    xvfb_argv, xfce_argv, x11vnc_argv, websockify_argv;
  wsimpl;
  repeat (first [reap_step | password_step | popen_step
                | known_program | case_program]; wsimpl).


#[local] Arguments shell_events : simpl never.
#[local] Arguments reaped : simpl never.
#[local] Arguments spawned : simpl never.
#[local] Arguments handle : simpl never.

(** ** Facts about traces *)

Lemma role_spawns_app (l1 l2 : list Event) :
  role_spawns (l1 ++ l2) = role_spawns l1 ++ role_spawns l2.
Proof.
  induction l1 as [|e l1 IH]; [reflexivity|].
  destruct e; cbn [app role_spawns]; auto.
  destruct (role_of argv); cbn [app]; congruence.
Qed.

Lemma role_spawns_shell (pr : string -> Program) (t : nat) (c : string) :
  role_spawns (shell_events pr t c) = [].
Proof. unfold shell_events. destruct (pr "/bin/sh"); reflexivity. Qed.

Lemma role_spawns_quiet (evs : list Event) :
  Forall (fun e => is_exec e = false) evs -> role_spawns evs = [].
Proof.
  induction 1 as [|e evs He _ IH]; [reflexivity|].
  destruct e; cbn in He; try discriminate; exact IH.
Qed.

Ltac trace_split :=
  eexists; split; [rewrite <- ?app_assoc; cbn [app]; reflexivity|].

Ltac spawns_norm :=
  repeat (cbn [role_spawns role_of List.find hd roles_in_order executable
               String.eqb Ascii.eqb Bool.eqb map snd app];
          rewrite ?role_spawns_app, ?role_spawns_shell;
          repeat match goal with
          | H : Forall (fun e => is_exec e = false) ?l |- context [role_spawns ?l] =>
              rewrite (role_spawns_quiet l H)
          end).


(** ** The non-shell branch of [run_command] *)

(** C9.  For every command and every value of [wait], [run_command]
    with [shell=False] returns [False] and starts nothing: the keyword
    [preprocess] is not a parameter of [subprocess.Popen], the call
    raises [TypeError] before anything is executed, and the handler logs
    the error.  The world is the one before the call plus the log line:
    same process table, same next process identifier, no [Exec] event. *)
Theorem run_command_without_shell_fails (command : cmd) (wait : bool)
    (w : World) :
  run_command command wait false w
  = (Returns (RBool false),
     emit
       (Logged (now w)
          ("Error running command: " +:+ str (TypeError
             "Popen.__init__() got an unexpected keyword argument 'preprocess'")))
       w).
Proof. reflexivity. Qed.

(** ** The status query *)

Lemma subprocess_run_pgrep (pat : string) (w : World) :
  subprocess_run ["pgrep"; "-f"; pat] w
  = match programs w "pgrep" with
    | Missing =>
        (Raises (enoent "pgrep"),
         emit (Exec (now w) ["pgrep"; "-f"; pat] false) w)
    | Denied =>
        (Raises (eacces "pgrep"),
         emit (Exec (now w) ["pgrep"; "-f"; pat] false) w)
    | Installed _ =>
        (Returns (mkCompleted (pgrep_f pat w)),
         emit (Exec (now w) ["pgrep"; "-f"; pat] true) (set_next_pid S w))
    end.
Proof.
  destruct w as [ps fs um en pr t np tr g1 g2 g3 g4].
  unfold subprocess_run, subprocess_Popen, execute, Popen_wait. cbn.
  wsimpl0. destruct (pr "pgrep"); reflexivity.
Qed.

(** What [check_desktop_status] does, by the state of [pgrep]: it never
    raises, and it leaves the process table and the files as they are. *)
Lemma check_desktop_status_run (w : World) :
  exists w',
    check_desktop_status w
    = (Returns
         match exec_error w "pgrep" with
         | Some e => [("error", PyStr (str e))]
         | None => snapshot w
         end, w')
    /\ procs w' = procs w
    /\ files w' = files w.
Proof.
  destruct w as [ps fs um en pr t np tr g1 g2 g3 g4].
  unfold check_desktop_status, exec_error. wsimpl.
  rewrite subprocess_run_pgrep. wsimpl.
  destruct (pr "pgrep") as [| |b] eqn:Hp; wsimpl; eauto.
  rewrite subprocess_run_pgrep. wsimpl. rewrite Hp.
  rewrite subprocess_run_pgrep. wsimpl. rewrite Hp.
  eexists. split.
  - apply f_equal2; [|reflexivity].
    unfold snapshot, running, pgrep_f. cbn.
    repeat destruct (existsb _ _); reflexivity.
  - split; reflexivity.
Qed.

(** C1, as the code has it.  Whenever [pgrep] can be run, the status
    query returns a dictionary with exactly the keys [xvfb], [vnc],
    [websockify] and [ready]: one boolean for each of DisplayServer,
    RemoteDisplayServer and WebSocketBridge, none for WindowSession.  A
    role's boolean is true iff the command line of some process contains
    the role's executable name, and [ready] is true iff the three
    reported roles are running. *)
Theorem check_desktop_status_snapshot (w : World) (b : Behaviour) :
  programs w "pgrep" = Installed b ->
  exists d,
    fst (check_desktop_status w) = Returns d
    /\ dict_keys d = ["xvfb"; "vnc"; "websockify"; "ready"]
    /\ (forall r k,
          status_key r = Some k ->
          dict_get k d = Some (PyBool (running r w)))
    /\ (forall r, status_key r = None <-> r = WindowSession)
    /\ (dict_get "ready" d = Some (PyBool true)
        <-> forall r, r <> WindowSession -> running r w = true).
Proof.
  intros Hp.
  destruct (check_desktop_status_run w) as (w' & E & _).
  unfold exec_error in E. rewrite Hp in E.
  exists (snapshot w). rewrite E. split; [reflexivity|].
  split; [reflexivity|]. split.
  { intros r k Hk. destruct r; cbn in Hk; inversion Hk; reflexivity. }
  split.
  { intros r. destruct r; cbn; split; congruence. }
  unfold snapshot. cbn. split.
  - intros H r Hr. inversion H as [Hb].
    apply andb_prop in Hb as [Hb H3]. apply andb_prop in Hb as [H1 H2].
    destruct r; congruence.
  - intros H.
    rewrite (H DisplayServer), (H RemoteDisplayServer), (H WebSocketBridge)
      by discriminate.
    reflexivity.
Qed.

(** The spec's scenario: only the display server was started. *)
Lemma check_desktop_status_snapshot_witness :
  programs only_display "pgrep" = Installed Daemon
  /\ exists d,
       fst (check_desktop_status only_display) = Returns d
       /\ dict_keys d = ["xvfb"; "vnc"; "websockify"; "ready"]
       /\ (forall r k,
             status_key r = Some k ->
             dict_get k d = Some (PyBool (running r only_display)))
       /\ (forall r, status_key r = None <-> r = WindowSession)
       /\ (dict_get "ready" d = Some (PyBool true)
           <-> forall r, r <> WindowSession -> running r only_display = true).
Proof.
  split; [reflexivity|].
  apply (check_desktop_status_snapshot only_display Daemon). reflexivity.
Defined.

Example only_display_status :
  fst (check_desktop_status only_display)
  = Returns
      [("xvfb", PyBool true); ("vnc", PyBool false);
       ("websockify", PyBool false); ("ready", PyBool false)].
Proof. vm_compute. reflexivity. Qed.

(** C1, counterexample.  With Xvfb, x11vnc and websockify running and no
    window session, the status query answers [ready = true]: the flag
    is not equivalent to all four roles running, and the dictionary has
    four keys only, [ready] included. *)
Lemma ready_without_window_session :
  fst (check_desktop_status no_session)
  = Returns
      [("xvfb", PyBool true); ("vnc", PyBool true);
       ("websockify", PyBool true); ("ready", PyBool true)]
  /\ running WindowSession no_session = false
  /\ ~ (forall d,
          fst (check_desktop_status no_session) = Returns d ->
          (dict_get "ready" d = Some (PyBool true)
           <-> forall r, running r no_session = true)).
Proof.
  split; [vm_compute; reflexivity|].
  split; [vm_compute; reflexivity|].
  intros H.
  specialize (H _ eq_refl). destruct H as [H _].
  specialize (H eq_refl WindowSession).
  vm_compute in H. discriminate.
Qed.

(** C8.  The status route returns, as the body of its response, what
    [check_desktop_status] returned, unchanged.  When the [pgrep] query
    raises, that is the error object [{"error": str(e)}], which has no
    role key and no [ready] key; when it does not, it is the snapshot.
    The route itself never raises. *)
Theorem api_status_reports_probe_failure (w : World) :
  (exists d w',
     check_desktop_status w = (Returns d, w')
     /\ api_status w = (Returns (jsonify d), w'))
  /\ match exec_error w "pgrep" with
     | Some e =>
         fst (api_status w) = Returns (jsonify [("error", PyStr (str e))])
         /\ [("error", PyStr (str e))] <> snapshot w
         /\ dict_get "ready" [("error", PyStr (str e))] = None
     | None => fst (api_status w) = Returns (jsonify (snapshot w))
     end.
Proof.
  destruct (check_desktop_status_run w) as (w' & E & _).
  unfold api_status, bind, ret. rewrite E. cbn [fst].
  split; [eauto|].
  destruct (exec_error w "pgrep"); [|reflexivity].
  split; [reflexivity|]. split; [discriminate|reflexivity].
Qed.

Example api_status_without_pgrep :
  fst (api_status (boot no_pgrep))
  = Returns
      (jsonify
         [("error", PyStr "[Errno 2] No such file or directory: 'pgrep'")]).
Proof. vm_compute. reflexivity. Qed.

(** ** Spawn arguments *)



(** C5, at the failing input.  With [VNC_PORT=5901] the remote display
    server is told to listen on 5901, and the bridge is still spawned
    with [localhost:5900]: its vector does not depend on the
    configuration, and 5901 occurs nowhere in it. *)
Theorem bridge_ignores_configured_port :
  VNC_PORT port_5901 = "5901"
  /\ nth_error (role_argv port_5901 RemoteDisplayServer) 7 = Some "5901"
  /\ role_argv port_5901 WebSocketBridge
     = ["websockify"; "--web"; "/home/user/novnc"; "6080"; "localhost:5900"]
  /\ existsb (contains "5901") (role_argv port_5901 WebSocketBridge) = false
  /\ List.filter is_exec
       (trace (after (start_desktop_environment port_5901) (boot healthy)))
     = [Exec 0 ["/bin/sh"; "-c"; "pkill -9 Xvfb"] true;
        Exec 1
          ["Xvfb"; ":1"; "-screen"; "0"; "1280x720x24"; "-ac"; "+extension";
           "GLX"] true;
        Exec 3 ["startxfce4"] true;
        Exec 6 ["/bin/sh"; "-c"; "pkill -9 x11vnc"] true;
        Exec 7
          ["x11vnc"; "-display"; ":1"; "-localhost"; "-forever"; "-shared";
           "-rfbport"; "5901"; "-rfbauth"; "/tmp/vnc_passwd"; "-o";
           "/tmp/x11vnc.log"; "-bg"] true;
        Exec 9 ["/bin/sh"; "-c"; "pkill -9 websockify"] true;
        Exec 10
          ["websockify"; "--web"; "/home/user/novnc"; "6080";
           "localhost:5900"] true].
Proof. vm_compute. repeat split; reflexivity. Qed.

(** The bridge's vector is the same for every configuration. *)
Lemma bridge_arguments_constant (cfg cfg' : Config) :
  role_argv cfg WebSocketBridge = role_argv cfg' WebSocketBridge.
Proof. reflexivity. Qed.

(** ** The start-up sequence *)

Ltac first_failure_cases w H :=
  let H1 := fresh "H1" in
  let H2 := fresh "H2" in
  let H3 := fresh "H3" in
  let H4 := fresh "H4" in
  destruct (programs w "Xvfb") eqn:H1;
  destruct (programs w "startxfce4") eqn:H2;
  destruct (programs w "x11vnc") eqn:H3;
  destruct (programs w "websockify") eqn:H4;
  cbv [first_failure exec_error List.find roles_in_order executable] in H;
  repeat (rewrite ?H1, ?H2, ?H3, ?H4 in H; cbv beta iota in H);
  try discriminate H.

Lemma no_failure_installed (w : World) :
  first_failure w = None ->
  forall r, exists b, programs w (executable r) = Installed b.
Proof.
  intros H. first_failure_cases w H.
  intros r. destruct r; cbn; eauto.
Qed.

Lemma first_failure_found (w : World) (r : ManagedRole) (e : exn) :
  first_failure w = Some (r, e) ->
  exec_error w (executable r) = Some e
  /\ forall r', In r' (before r) ->
       exists b, programs w (executable r') = Installed b.
Proof.
  intros H. first_failure_cases w H.
  all: inversion H; subst; unfold exec_error; cbn [executable before up_to removelast];
    (split;
       [ match goal with
         | E : programs _ ?s = _ |- context [programs _ ?s] =>
             rewrite E; reflexivity
         end |]).
  all: intros r' Hr'; cbn in Hr'; intuition subst; cbn [executable]; eauto.
Qed.


(** The exact times of a complete run, counted from its start. *)
Lemma spawn_times (cfg : Config) (w : World) :
  first_failure w = None ->
  let '(_, w') := start_desktop_environment cfg w in
  exists evs,
    trace w' = trace w ++ evs
    /\ role_spawns evs
       = [(now w + 1, DisplayServer); (now w + 3, WindowSession);
          (now w + 7, RemoteDisplayServer); (now w + 10, WebSocketBridge)]
    /\ now w' = now w + 12.
Proof.
  intros H. pose proof (no_failure_installed w H) as Hi.
  destruct (Hi DisplayServer) as [b1 H1].
  destruct (Hi WindowSession) as [b2 H2].
  destruct (Hi RemoteDisplayServer) as [b3 H3].
  destruct (Hi WebSocketBridge) as [b4 H4].
  clear H Hi.
  destruct w as [ps fs um en pr t np tr g1 g2 g3 g4].
  cbn [executable programs] in *.
  run. trace_split. spawns_norm. cbn [now].
  split; [|lia].
  repeat match goal with
  | |- _ :: _ = _ :: _ =>
      apply f_equal2; [apply (f_equal2 pair); [lia | reflexivity]|]
  end.
  reflexivity.
Qed.

(** C10.  When no role's spawn raises, the start-up sequence returns
    [True] and its last act is to log that the environment is ready, and
    so does each role's start function return [True]: whatever the
    spawned programs do afterwards, also when each of them has already
    exited. *)
Theorem bootstrap_returns_true (cfg : Config) (w : World) :
  first_failure w = None ->
  (let '(o, w') := start_desktop_environment cfg w in
   o = Returns true
   /\ last (trace w') = Some (Logged (now w') "Desktop environment ready!"))
  /\ fst (start_xvfb cfg w) = Returns true
  /\ fst (start_xfce w) = Returns true
  /\ fst (start_vnc_server cfg w) = Returns true
  /\ fst (start_websockify w) = Returns true.
Proof.
  intros H. pose proof (no_failure_installed w H) as Hi.
  destruct (Hi DisplayServer) as [b1 H1].
  destruct (Hi WindowSession) as [b2 H2].
  destruct (Hi RemoteDisplayServer) as [b3 H3].
  destruct (Hi WebSocketBridge) as [b4 H4].
  clear H Hi.
  destruct w as [ps fs um en pr t np tr g1 g2 g3 g4].
  cbn [executable programs] in *.
  split; [run; split; [reflexivity | apply last_snoc]|].
  repeat split; run; reflexivity.
Qed.

(** Every role exits at once, and the run still reports success. *)
Lemma bootstrap_returns_true_witness :
  first_failure (boot crashing) = None
  /\ (let '(o, w') :=
        start_desktop_environment default_config (boot crashing) in
      o = Returns true
      /\ last (trace w')
         = Some (Logged (now w') "Desktop environment ready!"))
  /\ fst (start_xvfb default_config (boot crashing)) = Returns true
  /\ fst (start_xfce (boot crashing)) = Returns true
  /\ fst (start_vnc_server default_config (boot crashing)) = Returns true
  /\ fst (start_websockify (boot crashing)) = Returns true.
Proof.
  split; [reflexivity|].
  apply (bootstrap_returns_true default_config (boot crashing)).
  reflexivity.
Defined.

(** After such a run the status query finds nothing. *)
Example ready_logged_nothing_running :
  fst (check_desktop_status
         (after (start_desktop_environment default_config) (boot crashing)))
  = Returns
      [("xvfb", PyBool false); ("vnc", PyBool false);
       ("websockify", PyBool false); ("ready", PyBool false)].
Proof. vm_compute. reflexivity. Qed.

(** C3, as the code has it.  The spawn of a role is not guarded: when
    [r] is the first role that the system cannot start, the exception
    leaves [start_desktop_environment], the failed exec is the last
    thing in the trace (nothing is logged about it), the roles before
    [r] were spawned in order and no role after [r] is attempted. *)
Theorem bootstrap_stops_at_failed_spawn (cfg : Config) (w : World)
    (r : ManagedRole) (e : exn) :
  first_failure w = Some (r, e) ->
  let '(o, w') := start_desktop_environment cfg w in
  o = Raises e
  /\ last (trace w') = Some (Exec (now w') (role_argv cfg r) false)
  /\ exists evs,
       trace w' = trace w ++ evs
       /\ map snd (role_spawns evs) = up_to r.
Proof.
  intros H. apply first_failure_found in H as [He Hb].
  destruct w as [ps fs um en pr t np tr g1 g2 g3 g4].
  unfold exec_error in He.
  destruct r; cbn [before up_to removelast executable programs] in *.
  - run; try discriminate He; inversion He; subst;
      (split; [reflexivity|]); (split; [apply last_snoc|]);
      trace_split; spawns_norm; reflexivity.
  - destruct (Hb DisplayServer) as [b1 H1]; [cbn; tauto|].
    cbn [executable] in H1.
    run; try discriminate He; inversion He; subst;
      (split; [reflexivity|]); (split; [apply last_snoc|]);
      trace_split; spawns_norm; reflexivity.
  - destruct (Hb DisplayServer) as [b1 H1]; [cbn; tauto|].
    destruct (Hb WindowSession) as [b2 H2]; [cbn; tauto|].
    cbn [executable] in H1, H2.
    run; try discriminate He; inversion He; subst;
      (split; [reflexivity|]); (split; [apply last_snoc|]);
      trace_split; spawns_norm; reflexivity.
  - destruct (Hb DisplayServer) as [b1 H1]; [cbn; tauto|].
    destruct (Hb WindowSession) as [b2 H2]; [cbn; tauto|].
    destruct (Hb RemoteDisplayServer) as [b3 H3]; [cbn; tauto|].
    cbn [executable] in H1, H2, H3.
    run; try discriminate He; inversion He; subst;
      (split; [reflexivity|]); (split; [apply last_snoc|]);
      trace_split; spawns_norm; reflexivity.
Qed.

Lemma bootstrap_stops_at_failed_spawn_witness :
  first_failure (boot no_xvfb) = Some (DisplayServer, enoent "Xvfb")
  /\ let '(o, w') := start_desktop_environment default_config (boot no_xvfb) in
     o = Raises (enoent "Xvfb")
     /\ last (trace w')
        = Some (Exec (now w') (role_argv default_config DisplayServer) false)
     /\ exists evs,
          trace w' = trace (boot no_xvfb) ++ evs
          /\ map snd (role_spawns evs) = up_to DisplayServer.
Proof.
  split; [reflexivity|].
  apply (bootstrap_stops_at_failed_spawn default_config (boot no_xvfb)
           DisplayServer (enoent "Xvfb")).
  reflexivity.
Defined.

(** C3, counterexample.  Without an Xvfb executable the start-up
    sequence raises [FileNotFoundError]; the only role whose spawn was
    attempted is the display server, and the log has the two lines
    written before the attempt, none about the error. *)
Lemma bootstrap_aborts_without_xvfb :
  let '(o, w') := start_desktop_environment default_config (boot no_xvfb) in
  o = Raises (FileNotFoundError "[Errno 2] No such file or directory: 'Xvfb'")
  /\ role_spawns (trace w') = [(1, DisplayServer)]
  /\ List.filter is_log (trace w')
     = [Logged 0 "Initializing desktop environment...";
        Logged 0 "Starting Xvfb..."]
  /\ ~ (forall r, In r (map snd (role_spawns (trace w')))).
Proof.
  vm_compute. repeat split.
  intros H. destruct (H WindowSession) as [H'|[]]. discriminate.
Qed.

(** ** The password file *)





(** When the file is another user's, the step logs the error and goes
    on: the file is there, with the mode it had. *)
Example foreign_password_file_keeps_mode :
  let w' :=
    after (start_vnc_server_prepare default_config) foreign_password_file in
  mode <$> files w' !! password_file = Some mode_0o666
  /\ List.filter is_log (trace w')
     = [Logged 0 "Starting x11vnc server...";
        Logged 0
          "Error creating password file: [Errno 1] Operation not permitted: '/tmp/vnc_passwd'"].
Proof. vm_compute. split; reflexivity. Qed.

(** ** Reaping *)













(** * Further properties of the code *)

(** ** [run_command] *)

(** Whatever the command and the flags, [run_command] does not raise:
    every exception of its body is caught by its handler. *)
Theorem run_command_never_raises (command : cmd) (wait shell : bool)
    (w : World) :
  match fst (run_command command wait shell w) with
  | Raises _ => False
  | _ => True
  end.
Proof.
  unfold run_command, try_except.
  match goal with
  | |- context [match ?b with (_, _) => _ end] =>
      destruct b as [[a|e|] w']
  end; exact I.
Qed.



Example run_command_false_returns_false :
  fst (run_command (Command "false") true true (boot (exits_with 1)))
  = Returns (RBool false).
Proof. vm_compute. reflexivity. Qed.

(** Without [pkill] the reap does nothing and says nothing: the shell
    starts, exits with 127, and since the caller does not wait the
    status is never looked at.  No process is killed and no line is
    logged. *)
Theorem reap_without_pkill_is_silent (r : ManagedRole) (w : World)
    (b : Behaviour) :
  programs w "/bin/sh" = Installed b ->
  programs w "pkill" = Missing ->
  let '(o, w') := run_command (Command (reap_command r)) false true w in
  o = Returns (RProcess (mkPopen (next_pid w) (Some 127%Z)))
  /\ procs w' = procs w
  /\ trace w'
     = trace w ++ [Exec (now w) ["/bin/sh"; "-c"; reap_command r] true].
Proof.
  intros Hsh Hpk.
  destruct w as [ps fs um en pr t np tr g1 g2 g3 g4].
  cbn [programs] in *.
  unfold run_command, subprocess_Popen.
  wsimpl0. cbn -[words sh_c].
  unfold sh_c. wsimpl0. rewrite Hsh, words_reap.
  unfold execute. wsimpl0. cbn [hd]. rewrite Hpk. wsimpl0.
  repeat split; reflexivity.
Qed.

Lemma reap_without_pkill_is_silent_witness :
  programs only_display_no_pkill "/bin/sh" = Installed Daemon
  /\ programs only_display_no_pkill "pkill" = Missing
  /\ let '(o, w') :=
       run_command (Command (reap_command DisplayServer)) false true
         only_display_no_pkill in
     o = Returns (RProcess (mkPopen (next_pid only_display_no_pkill)
                              (Some 127%Z)))
     /\ procs w' = procs only_display_no_pkill
     /\ trace w'
        = trace only_display_no_pkill
          ++ [Exec (now only_display_no_pkill)
                ["/bin/sh"; "-c"; reap_command DisplayServer] true].
Proof.
  split; [reflexivity|]. split; [reflexivity|].
  apply (reap_without_pkill_is_silent DisplayServer only_display_no_pkill
           Daemon); reflexivity.
Defined.

(** ** Reaping that fails *)

Ltac find_event :=
  repeat first
    [ left; reflexivity
    | right
    | apply in_or_app; right ].

Ltac roles_installed w H :=
  let Hi := fresh "Hi" in
  pose proof (no_failure_installed w H) as Hi;
  destruct (Hi DisplayServer) as [? ?];
  destruct (Hi WindowSession) as [? ?];
  destruct (Hi RemoteDisplayServer) as [? ?];
  destruct (Hi WebSocketBridge) as [? ?];
  clear Hi.

(** When the shell cannot be started, each of the three reaps fails,
    the error is logged by [run_command], and the start-up sequence
    goes on: it returns [True], all earlier processes are still there,
    and the three errors are in the log at the times of the reaps. *)
Theorem reap_without_shell_is_logged (cfg : Config) (w : World) (e : exn) :
  exec_error w "/bin/sh" = Some e ->
  first_failure w = None ->
  let '(o, w') := start_desktop_environment cfg w in
  o = Returns true
  /\ (forall p, In p (procs w) -> In p (procs w'))
  /\ exists evs,
       trace w' = trace w ++ evs
       /\ In (Logged (now w) ("Error running command: " +:+ str e)) evs
       /\ In (Logged (now w + 6) ("Error running command: " +:+ str e)) evs
       /\ In (Logged (now w + 9) ("Error running command: " +:+ str e)) evs
       /\ map snd (role_spawns evs) = roles_in_order.
Proof.
  intros He H. roles_installed w H. clear H.
  destruct w as [ps fs um en pr t np tr g1 g2 g3 g4].
  unfold exec_error in He. cbn [executable programs now procs trace] in *.
  run.
  split; [reflexivity|].
  unfold reaped, shell_events.
  destruct (pr "/bin/sh") as [| |?]; try discriminate He;
    inversion He; subst; clear He.
  all: split; [intros p Hp; repeat (apply in_or_app; left); exact Hp|].
  all: trace_split.
  all: replace (t + 6) with (t + 1 + 2 + 3) by lia.
  all: replace (t + 9) with (t + 1 + 2 + 3 + 1 + 2) by lia.
  all: split; [find_event|].
  all: split; [find_event|].
  all: split; [find_event|].
  all: spawns_norm; reflexivity.
Qed.

Lemma reap_without_shell_is_logged_witness :
  exec_error (boot no_shell) "/bin/sh" = Some (enoent "/bin/sh")
  /\ first_failure (boot no_shell) = None
  /\ let '(o, w') := start_desktop_environment default_config (boot no_shell) in
     o = Returns true
     /\ (forall p, In p (procs (boot no_shell)) -> In p (procs w'))
     /\ exists evs,
          trace w' = trace (boot no_shell) ++ evs
          /\ In (Logged (now (boot no_shell))
                   ("Error running command: " +:+ str (enoent "/bin/sh")))
               evs
          /\ In (Logged (now (boot no_shell) + 6)
                   ("Error running command: " +:+ str (enoent "/bin/sh")))
               evs
          /\ In (Logged (now (boot no_shell) + 9)
                   ("Error running command: " +:+ str (enoent "/bin/sh")))
               evs
          /\ map snd (role_spawns evs) = roles_in_order.
Proof.
  split; [reflexivity|]. split; [reflexivity|].
  apply (reap_without_shell_is_logged default_config (boot no_shell)
           (enoent "/bin/sh")); reflexivity.
Defined.

(** ** Configuration *)

(** The configuration is not validated.  Whatever the environment holds
    under [RESOLUTION] and [VNC_PORT] (the defaults when a key is
    missing) goes as it is into the arguments of Xvfb and x11vnc, and a
    run in which every role can be started returns [True] all the
    same. *)
Theorem configuration_is_passed_unvalidated (env : gmap string string)
    (w : World) :
  first_failure w = None ->
  let '(o, w') := start_desktop_environment (load_config env) w in
  o = Returns true
  /\ exists evs,
       trace w' = trace w ++ evs
       /\ In (Exec (now w + 1)
                ["Xvfb"; ":1"; "-screen"; "0";
                 default "1280x720" (env !! "RESOLUTION") +:+ "x24";
                 "-ac"; "+extension"; "GLX"] true) evs
       /\ In (Exec (now w + 7)
                ["x11vnc"; "-display"; ":1"; "-localhost"; "-forever";
                 "-shared"; "-rfbport"; default "5900" (env !! "VNC_PORT");
                 "-rfbauth"; "/tmp/vnc_passwd"; "-o"; "/tmp/x11vnc.log";
                 "-bg"] true) evs.
Proof.
  intros H. roles_installed w H. clear H.
  destruct w as [ps fs um en pr t np tr g1 g2 g3 g4].
  cbn [executable programs now trace] in *.
  run.
  split; [reflexivity|].
  trace_split.
  replace (t + 7) with (t + 1 + 2 + 3 + 1) by lia.
  split; find_event.
Qed.

Lemma configuration_is_passed_unvalidated_witness :
  first_failure (boot healthy) = None
  /\ let '(o, w') :=
       start_desktop_environment (load_config bogus_resolution)
         (boot healthy) in
     o = Returns true
     /\ exists evs,
          trace w' = trace (boot healthy) ++ evs
          /\ In (Exec (now (boot healthy) + 1)
                   ["Xvfb"; ":1"; "-screen"; "0";
                    default "1280x720" (bogus_resolution !! "RESOLUTION")
                    +:+ "x24";
                    "-ac"; "+extension"; "GLX"] true) evs
          /\ In (Exec (now (boot healthy) + 7)
                   ["x11vnc"; "-display"; ":1"; "-localhost"; "-forever";
                    "-shared"; "-rfbport";
                    default "5900" (bogus_resolution !! "VNC_PORT");
                    "-rfbauth"; "/tmp/vnc_passwd"; "-o"; "/tmp/x11vnc.log";
                    "-bg"] true) evs.
Proof.
  split; [reflexivity|].
  apply (configuration_is_passed_unvalidated bogus_resolution (boot healthy)).
  reflexivity.
Defined.

Example bogus_resolution_reaches_xvfb :
  nth_error (role_argv (load_config bogus_resolution) DisplayServer) 4
  = Some "bogusx24".
Proof. vm_compute. reflexivity. Qed.

(** ** Processes and their environment *)

(** [start_xfce] works on a copy of the environment: the new process
    has [DISPLAY=:1], whatever [DISPLAY] was before, and every other
    variable as the program has it, and the program's own environment
    is not changed. *)
Theorem start_xfce_sets_display (w : World) :
  programs w "startxfce4" = Installed Daemon ->
  let '(o, w') := start_xfce w in
  o = Returns true
  /\ environ w' = environ w
  /\ exists p,
       procs w' = procs w ++ [p]
       /\ comm p = "startxfce4"
       /\ leader p = true
       /\ penv p !! "DISPLAY" = Some ":1"
       /\ forall k, k <> "DISPLAY" -> penv p !! k = environ w !! k.
Proof.
  intros H.
  destruct w as [ps fs um en pr t np tr g1 g2 g3 g4].
  cbn [programs] in H.
  run. unfold spawned.
  split; [reflexivity|]. split; [reflexivity|].
  eexists. split; [reflexivity|]. cbn [comm leader penv hd].
  split; [reflexivity|]. split; [reflexivity|].
  split; [apply lookup_insert_eq|].
  intros k Hk. apply lookup_insert_ne. congruence.
Qed.

Lemma start_xfce_sets_display_witness :
  programs (boot healthy) "startxfce4" = Installed Daemon
  /\ let '(o, w') := start_xfce (boot healthy) in
     o = Returns true
     /\ environ w' = environ (boot healthy)
     /\ exists p,
          procs w' = procs (boot healthy) ++ [p]
          /\ comm p = "startxfce4"
          /\ leader p = true
          /\ penv p !! "DISPLAY" = Some ":1"
          /\ forall k,
               k <> "DISPLAY" -> penv p !! k = environ (boot healthy) !! k.
Proof.
  split; [reflexivity|].
  apply (start_xfce_sets_display (boot healthy)). reflexivity.
Defined.

Lemma in_reaped (pr : string -> Program) (r : ManagedRole)
    (ps : list Proc) (p : Proc) :
  In p (reaped pr r ps) -> In p ps.
Proof.
  unfold reaped.
  destruct (pr "/bin/sh") as [| |?]; try tauto.
  destruct (pr "pkill") as [| |?]; try tauto.
  intros H. apply List.filter_In in H. tauto.
Qed.

Lemma in_reaped_intro (pr : string -> Program) (r : ManagedRole)
    (ps : list Proc) (p : Proc) :
  In p ps ->
  contains (executable r) (comm p) = false ->
  In p (reaped pr r ps).
Proof.
  intros Hin Hc. unfold reaped.
  destruct (pr "/bin/sh") as [| |?]; try exact Hin.
  destruct (pr "pkill") as [| |?]; try exact Hin.
  apply List.filter_In. rewrite Hc. split; [exact Hin | reflexivity].
Qed.

Lemma in_spawned (b : Behaviour) (n : nat) (argv : list string)
    (env : gmap string string) (s : bool) (p : Proc) :
  In p (spawned b n argv env s) ->
  p = mkProc n (hd "" argv) (unwords argv) env s.
Proof.
  destruct b; unfold spawned; cbn [In]; intros H; [tauto|].
  destruct H as [H|[]]. symmetry. exact H.
Qed.

Ltac role_process_here :=
  right;
  first
    [ exists DisplayServer; repeat split; reflexivity
    | exists WindowSession; repeat split; reflexivity
    | exists RemoteDisplayServer; repeat split; reflexivity
    | exists WebSocketBridge; repeat split; reflexivity ].

Ltac trace_back H :=
  repeat first
    [ apply in_reaped in H
    | apply in_app_or in H; destruct H as [H|H];
      [| apply in_spawned in H; subst; role_process_here ] ];
  try (left; exact H).

(** Whatever the outcome, the start-up sequence adds to the process
    table nothing but processes of the four roles, each with the
    arguments of its start function, in a session of its own, and with
    the program's environment ([DISPLAY] added for the window session
    alone).  Every other process in the table was there before. *)
Theorem bootstrap_adds_only_role_processes (cfg : Config) (w : World) :
  let '(_, w') := start_desktop_environment cfg w in
  forall p,
    In p (procs w') -> In p (procs w) \/ role_process cfg (environ w) p.
Proof.
  destruct w as [ps fs um en pr t np tr g1 g2 g3 g4].
  run.
  all: cbn [procs environ]; intros p Hp; unfold role_process.
  all: trace_back Hp.
Qed.

(** ** Timing *)

(** The schedule of a run in which every role can be started, read off
    the sleeps: the roles are spawned 1, 3, 7 and 10 seconds after the
    start and the run ends after 12 seconds. *)
Lemma spawn_times_witness :
  first_failure (boot healthy) = None
  /\ let '(_, w') := start_desktop_environment default_config (boot healthy) in
     exists evs,
       trace w' = trace (boot healthy) ++ evs
       /\ role_spawns evs
          = [(now (boot healthy) + 1, DisplayServer);
             (now (boot healthy) + 3, WindowSession);
             (now (boot healthy) + 7, RemoteDisplayServer);
             (now (boot healthy) + 10, WebSocketBridge)]
       /\ now w' = now (boot healthy) + 12.
Proof.
  split; [reflexivity|].
  apply (spawn_times default_config (boot healthy)). reflexivity.
Defined.

(** ** The result of the start-up sequence *)

(** The start-up sequence never waits for a child and never returns
    [False]: it raises the error of the first role that cannot be
    started, and returns [True] when there is none. *)
Theorem bootstrap_outcome (cfg : Config) (w : World) :
  fst (start_desktop_environment cfg w)
  = match first_failure w with
    | Some (_, e) => Raises e
    | None => Returns true
    end.
Proof.
  destruct (first_failure w) as [[r e]|] eqn:H.
  - apply first_failure_found in H as [He Hb].
    destruct w as [ps fs um en pr t np tr g1 g2 g3 g4].
    unfold exec_error in He.
    destruct r; cbn [before up_to removelast executable programs] in *.
    + run; try discriminate He; inversion He; reflexivity.
    + destruct (Hb DisplayServer) as [b1 H1]; [cbn; tauto|].
      cbn [executable] in H1.
      run; try discriminate He; inversion He; reflexivity.
    + destruct (Hb DisplayServer) as [b1 H1]; [cbn; tauto|].
      destruct (Hb WindowSession) as [b2 H2]; [cbn; tauto|].
      cbn [executable] in H1, H2.
      run; try discriminate He; inversion He; reflexivity.
    + destruct (Hb DisplayServer) as [b1 H1]; [cbn; tauto|].
      destruct (Hb WindowSession) as [b2 H2]; [cbn; tauto|].
      destruct (Hb RemoteDisplayServer) as [b3 H3]; [cbn; tauto|].
      cbn [executable] in H1, H2, H3.
      run; try discriminate He; inversion He; reflexivity.
  - roles_installed w H. clear H.
    destruct w as [ps fs um en pr t np tr g1 g2 g3 g4].
    cbn [executable programs] in *.
    run. reflexivity.
Qed.

(** ** More on the status query *)

Lemma running_intro (r : ManagedRole) (w : World) (p : Proc) :
  In p (procs w) ->
  contains (executable r) (cmdline p) = true ->
  running r w = true.
Proof.
  intros Hin Hc. unfold running. apply existsb_exists. eauto.
Qed.

Ltac in_procs :=
  first
    [ solve [left; reflexivity]
    | solve [assumption]
    | solve [apply in_or_app; right; in_procs]
    | solve [apply in_or_app; left; in_procs]
    | solve [apply in_reaped_intro; [in_procs | vm_compute; reflexivity]] ].

Ltac running_role name :=
  match goal with
  | W := context [spawned Daemon ?n (name :: ?args) ?env ?s] |- _ =>
      apply (running_intro _ _
               (mkProc n name (unwords (name :: args)) env s));
      [ unfold W, spawned; cbn [procs]; in_procs
      | vm_compute; reflexivity ]
  end.

(** When the four roles keep running and [pgrep] is there, the status
    query made after the start-up sequence reports every probed role
    as running and [ready] as true. *)
Theorem ready_after_bootstrap (cfg : Config) (w : World) (b : Behaviour) :
  (forall r, programs w (executable r) = Installed Daemon) ->
  programs w "pgrep" = Installed b ->
  fst (check_desktop_status (after (start_desktop_environment cfg) w))
  = Returns
      [("xvfb", PyBool true); ("vnc", PyBool true);
       ("websockify", PyBool true); ("ready", PyBool true)].
Proof.
  intros Hr Hp.
  pose proof (Hr DisplayServer) as H1. pose proof (Hr WindowSession) as H2.
  pose proof (Hr RemoteDisplayServer) as H3.
  pose proof (Hr WebSocketBridge) as H4. clear Hr.
  destruct w as [ps fs um en pr t np tr g1 g2 g3 g4].
  cbn [executable programs] in *.
  run.
  match goal with
  | |- context [check_desktop_status ?W] =>
      destruct (check_desktop_status_run W) as (w' & E & _);
      rewrite E; clear E; set (W' := W)
  end.
  unfold exec_error. cbn [programs W']. rewrite Hp. cbv beta iota.
  assert (R1 : running DisplayServer W' = true) by running_role "Xvfb".
  assert (R2 : running RemoteDisplayServer W' = true)
    by running_role "x11vnc".
  assert (R3 : running WebSocketBridge W' = true)
    by running_role "websockify".
  unfold snapshot. rewrite R1, R2, R3. reflexivity.
Qed.

Lemma ready_after_bootstrap_witness :
  (forall r, programs (boot healthy) (executable r) = Installed Daemon)
  /\ programs (boot healthy) "pgrep" = Installed Daemon
  /\ fst (check_desktop_status
            (after (start_desktop_environment default_config) (boot healthy)))
     = Returns
         [("xvfb", PyBool true); ("vnc", PyBool true);
          ("websockify", PyBool true); ("ready", PyBool true)].
Proof.
  split; [intros r; reflexivity|]. split; [reflexivity|].
  apply (ready_after_bootstrap default_config (boot healthy) Daemon);
    [intros r; reflexivity | reflexivity].
Defined.

(** The reap goes by process name and the probe by command line.  A
    process that only mentions [Xvfb] on its command line is not killed
    by [start_xvfb], and it makes the status query report the display
    server as running, also when Xvfb itself has exited at once. *)
Theorem mention_of_name_counts_as_running (cfg : Config) (w : World)
    (p : Proc) (b b' : Behaviour) :
  In p (procs w) ->
  contains "Xvfb" (cmdline p) = true ->
  contains "Xvfb" (comm p) = false ->
  programs w "Xvfb" = Installed b ->
  programs w "pgrep" = Installed b' ->
  let w' := after (start_xvfb cfg) w in
  In p (procs w')
  /\ exists d,
       fst (check_desktop_status w') = Returns d
       /\ dict_get "xvfb" d = Some (PyBool true).
Proof.
  intros Hin Hcmd Hcomm Hx Hp.
  destruct w as [ps fs um en pr t np tr g1 g2 g3 g4].
  cbn [programs procs] in *.
  run.
  match goal with
  | |- context [check_desktop_status ?W] =>
      destruct (check_desktop_status_run W) as (w' & E & _);
      rewrite E; clear E; set (W' := W)
  end.
  assert (Hin' : In p (procs W')).
  { unfold W'. cbn [procs]. apply in_or_app. left.
    apply in_reaped_intro; assumption. }
  split; [exact Hin'|].
  unfold exec_error. cbn [programs W']. rewrite Hp. cbv beta iota.
  eexists. split; [reflexivity|].
  unfold snapshot. cbn [dict_get String.eqb Ascii.eqb Bool.eqb].
  rewrite (running_intro DisplayServer W' p Hin' Hcmd). reflexivity.
Qed.

Lemma mention_of_name_counts_as_running_witness :
  In log_watcher (procs watched)
  /\ contains "Xvfb" (cmdline log_watcher) = true
  /\ contains "Xvfb" (comm log_watcher) = false
  /\ programs watched "Xvfb" = Installed (Exits 1)
  /\ programs watched "pgrep" = Installed Daemon
  /\ let w' := after (start_xvfb default_config) watched in
     In log_watcher (procs w')
     /\ exists d,
          fst (check_desktop_status w') = Returns d
          /\ dict_get "xvfb" d = Some (PyBool true).
Proof.
  assert (H : In log_watcher (procs watched)) by (left; reflexivity).
  split; [exact H|].
  split; [reflexivity|]. split; [reflexivity|].
  split; [reflexivity|]. split; [reflexivity|].
  exact (mention_of_name_counts_as_running default_config watched
           log_watcher (Exits 1) Daemon H eq_refl eq_refl eq_refl eq_refl).
Defined.

(** The status route only looks: it never raises, it answers with
    status 200 also when the probe failed, and it leaves the process
    table, the files, the clock and the environment as they were.  All
    it adds to the trace are runs of [pgrep] and log lines. *)
Theorem api_status_only_reads (w : World) :
  let '(o, w') := api_status w in
  (exists r, o = Returns r /\ status_code r = 200)
  /\ procs w' = procs w
  /\ files w' = files w
  /\ now w' = now w
  /\ environ w' = environ w
  /\ exists evs, trace w' = trace w ++ evs /\ Forall is_probe_event evs.
Proof.
  destruct w as [ps fs um en pr t np tr g1 g2 g3 g4].
  unfold api_status, check_desktop_status, jsonify. wsimpl.
  rewrite subprocess_run_pgrep. wsimpl.
  destruct (pr "pgrep") as [| |b] eqn:Hp; wsimpl.
  1, 2: repeat split; eauto;
    eexists; (split; [rewrite <- ?app_assoc; cbn [app]; reflexivity|]);
    repeat constructor.
  rewrite subprocess_run_pgrep. wsimpl. rewrite Hp.
  rewrite subprocess_run_pgrep. wsimpl. rewrite Hp.
  repeat split; eauto.
  eexists. split; [rewrite <- ?app_assoc; cbn [app]; reflexivity|].
  repeat constructor.
Qed.

(** ** The password file, when it cannot be set up *)




